(** * Jenkins list views: [jenkins_jobs/modules/view_list.py]

    A shallow embedding of [List.root_xml], the function that turns the
    parsed YAML description of a list view into the [ElementTree] handed to
    Jenkins, together with the properties its specification states.

    Python values are embedded as the inductive [value]; a [dict] keeps its
    iteration order (an association list); an exception is the [Err] branch
    of [result]; the tree under construction is passed explicitly. *)

From Stdlib Require Import String Ascii List ZArith Bool Lia DecimalString.
From Stdlib Require Import Permutation.
Import ListNotations.
Local Open Scope string_scope.
Set Warnings "-register-all".

(** ** Python values *)

Inductive value : Type :=
| VNone
| VBool (b : bool)
| VInt (z : Z)
| VStr (s : string)
| VList (l : list value)
| VDict (d : list (string * value)).

(** A [dict] with string keys, in iteration order. A Python dict holds each
    key once; [lookup] takes the first entry of a key, and the properties
    below are proved for every association list, those without repeated
    keys among them. *)
Definition dict := list (string * value).

(** The exceptions [root_xml] can end in. Python's [KeyError] on
    [data['name']] is what the specification calls MissingFieldError;
    [NameError] is raised by the use of a name that is bound nowhere;
    RequiredFieldError is the error the specification gives the mapping
    helper for a required field that is absent. *)
Inductive error : Type :=
| KeyError (key : string)
| TypeError
| AttributeError
| NameError (name : string)
| RequiredFieldError (key : string).

Inductive result (A : Type) : Type :=
| Ok (a : A)
| Err (e : error).
Arguments Ok {A} a.
Arguments Err {A} e.

Definition bind {A B : Type} (r : result A) (k : A -> result B) : result B :=
  match r with
  | Ok a => k a
  | Err e => Err e
  end.

Notation "x <- c ;; k" := (bind c (fun x => k))
  (at level 61, c at next level, right associativity).

(** A [for] loop whose body may raise. *)
Fixpoint for_each {A S : Type} (body : S -> A -> result S) (xs : list A) (s : S)
  : result S :=
  match xs with
  | [] => Ok s
  | x :: rest => s' <- body s x ;; for_each body rest s'
  end.

(** ** Dictionary access *)

Fixpoint lookup (d : dict) (k : string) : option value :=
  match d with
  | [] => None
  | (k', v) :: rest => if String.eqb k' k then Some v else lookup rest k
  end.

(** [d[k]] *)
Definition getitem (d : dict) (k : string) : result value :=
  match lookup d k with
  | Some v => Ok v
  | None => Err (KeyError k)
  end.

(** [d.get(k, default)] *)
Definition get (d : dict) (k : string) (default : value) : value :=
  match lookup d k with
  | Some v => v
  | None => default
  end.

(** [v.get(k)] on a value that need not be a dict. *)
Definition py_get (v : value) (k : string) : result value :=
  match v with
  | VDict d => Ok (get d k VNone)
  | _ => Err AttributeError
  end.

(** ** Builtins *)

Definition is_None (v : value) : bool :=
  match v with
  | VNone => true
  | _ => false
  end.

(** Truth value of [v] in a conditional expression. *)
Definition truthy (v : value) : bool :=
  match v with
  | VNone => false
  | VBool b => b
  | VInt z => negb (Z.eqb z 0)
  | VStr s => negb (String.eqb s "")
  | VList l => match l with [] => false | _ => true end
  | VDict d => match d with [] => false | _ => true end
  end.

(** [v == 'literal'] *)
Definition eq_str (v : value) (s : string) : bool :=
  match v with
  | VStr s' => String.eqb s' s
  | _ => false
  end.

(** A [str] is held as its UTF-8 bytes. A byte of the form 10xxxxxx
    continues the code point begun before it. *)
Definition is_continuation (c : ascii) : bool :=
  match c with
  | Ascii _ _ _ _ _ _ b6 b7 => b7 && negb b6
  end.

(** A byte below 128: a code point of its own. *)
Definition is_ascii (c : ascii) : bool :=
  match c with
  | Ascii _ _ _ _ _ _ _ b7 => negb b7
  end.

(** The continuation bytes [s] starts with, and the code points after
    them. *)
Fixpoint split_points (s : string) : string * list string :=
  match s with
  | EmptyString => (EmptyString, [])
  | String c rest =>
      let (pre, pts) := split_points rest in
      if is_continuation c then (String c pre, pts)
      else (EmptyString, String c pre :: pts)
  end.

(** The code points of a string, each as the string of its bytes. *)
Definition code_points (s : string) : list string :=
  let (pre, pts) := split_points s in
  match pre with
  | EmptyString => pts
  | _ => pre :: pts
  end.

(** Iterating a [str] yields its code points, one-character strings. *)
Definition chars (s : string) : list value := map VStr (code_points s).

(** The sequence a [for] statement walks through: the items of a list, the
    keys of a dict, the characters of a string. *)
Definition py_iter (v : value) : result (list value) :=
  match v with
  | VList l => Ok l
  | VDict d => Ok (map (fun kv => VStr (fst kv)) d)
  | VStr s => Ok (chars s)
  | VNone | VBool _ | VInt _ => Err TypeError
  end.

(** ** Element trees *)

Inductive element : Type :=
  mkElement { tag : string;
              attrib : list (string * string);
              text : value;
              children : list element }.

(** [XML.Element(tag)]: no attributes, [text] is [None], no children. *)
Definition Element (t : string) : element := mkElement t [] VNone [].

Fixpoint attrib_set (a : list (string * string)) (k v : string)
  : list (string * string) :=
  match a with
  | [] => [(k, v)]
  | (k', v') :: rest =>
      if String.eqb k' k then (k', v) :: rest else (k', v') :: attrib_set rest k v
  end.

(** [e.set(k, v)] *)
Definition set (e : element) (k v : string) : element :=
  mkElement (tag e) (attrib_set (attrib e) k v) (text e) (children e).

(** [e.text = v] *)
Definition set_text (e : element) (v : value) : element :=
  mkElement (tag e) (attrib e) v (children e).

(** [XML.SubElement(parent, ...)] appends the new element to [parent]. The
    child is passed in its final state: the source fills a child in after
    attaching it, through the reference it still holds. *)
Definition SubElement (parent child : element) : element :=
  mkElement (tag parent) (attrib parent) (text parent) (children parent ++ [child]).

(** ** Tables of the module *)

Definition COLUMN_DICT : list (string * string) :=
  [ ("status", "hudson.views.StatusColumn");
    ("weather", "hudson.views.WeatherColumn");
    ("job", "hudson.views.JobColumn");
    ("last-success", "hudson.views.LastSuccessColumn");
    ("last-failure", "hudson.views.LastFailureColumn");
    ("last-duration", "hudson.views.LastDurationColumn");
    ("build-button", "hudson.views.BuildButtonColumn");
    ("last-stable", "hudson.views.LastStableColumn") ].

Fixpoint assoc (t : list (string * string)) (k : string) : option string :=
  match t with
  | [] => None
  | (k', v) :: rest => if String.eqb k' k then Some v else assoc rest k
  end.

(** [COLUMN_DICT[column] if column in COLUMN_DICT]: a list or a dict is not
    hashable, any other non-string is simply not a key. *)
Definition resolve (column : value) : result (option string) :=
  match column with
  | VStr s => Ok (assoc COLUMN_DICT s)
  | VList _ | VDict _ => Err TypeError
  | VNone | VBool _ | VInt _ => Ok None
  end.

(** The third component of a mapping triple: a default value, or the marker
    of a field that has none. *)
Inductive default : Type :=
| Required
| Default (v : value).

Definition field : Type := string * string * default.

Definition mapping_most_recent : list field :=
  [ ("max-to-include", "maxToInclude", Default (VStr "0"));
    ("check-start-time", "checkStartTime", Default (VBool false)) ].

Definition mapping_build_duration : list field :=
  [ ("match-type", "includeExcludeTypeString", Default (VStr "includeMatched"));
    ("build-duration-type", "buildCountTypeString", Default (VStr "Latest"));
    ("amount-type", "amountTypeString", Default (VStr "Hours"));
    ("amount", "amount", Default (VStr "0"));
    ("less-than", "lessThan", Default (VBool true));
    ("build-duration-minutes", "buildDurationMinutes", Default (VStr "0")) ].

Definition mapping_build_trend : list field :=
  [ ("match-type", "includeExcludeTypeString", Default (VStr "includeMatched"));
    ("build-trend-type", "buildCountTypeString", Default (VStr "Latest"));
    ("amount-type", "amountTypeString", Default (VStr "Hours"));
    ("amount", "amount", Default (VStr "0"));
    ("status", "statusTypeString", Default (VStr "Completed")) ].

Definition mapping_job_status : list field :=
  [ ("match-type", "includeExcludeTypeString", Default (VStr "includeMatched"));
    ("unstable", "unstable", Default (VBool false));
    ("failed", "failed", Default (VBool false));
    ("aborted", "aborted", Default (VBool false));
    ("disabled", "disabled", Default (VBool false));
    ("stable", "stable", Default (VBool false)) ].

(** The four filter blocks of [root_xml]: configuration key, element tag and
    mapping, in the order the source tests them. *)
Definition filter_blocks : list (string * string * list field) :=
  [ ("most-recent", "hudson.views.MostRecentJobsFilter", mapping_most_recent);
    ("build-duration", "hudson.views.BuildDurationFilter", mapping_build_duration);
    ("build-trend", "hudson.views.BuildTrendFilter", mapping_build_trend);
    ("job-status", "hudson.views.JobStatusFilter", mapping_job_status) ].

(** ** [List.root_xml] *)

Section RootXml.

(** [repr] of a list or dict, which [str] falls back on; it differs between
    interpreter versions and is left open. *)
Variable py_repr : value -> string.

(** [str(v)] *)
Definition py_str (v : value) : string :=
  match v with
  | VNone => "None"
  | VBool true => "True"
  | VBool false => "False"
  | VInt z => NilZero.string_of_int (Z.to_int z)
  | VStr s => s
  | VList _ | VDict _ => py_repr v
  end.

(** The binding of the name [convert_mapping_to_xml] that [root_xml] calls:
    it receives the filter element, the filter's data, the mapping and
    [fail_required], and fills the element in. The module calls it by its
    bare name and neither defines nor imports it, so [root_xml] is
    embedded over whatever that name is bound to. *)
Variable convert_mapping_to_xml :
  element -> value -> list field -> bool -> result element.

(** ['true' if v else 'false'] *)
Definition true_false (v : value) : value :=
  VStr (if truthy v then "true" else "false").

(** Lines 127-129: one [string] element per job name. *)
Definition job_names (jn_xml : element) (jobnames : value) : result element :=
  if is_None jobnames then Ok jn_xml
  else
    names <- py_iter jobnames ;;
    Ok (fold_left
          (fun x jobname =>
             SubElement x (set_text (Element "string") (VStr (py_str jobname))))
          names jn_xml).

(** One [if jobfilter == key:] block of the loop at lines 134-195. *)
Definition filter_block (jobfilters : value) (key cls : string)
           (mapping : list field) (job_filter_xml : element) (jobfilter : value)
  : result element :=
  if eq_str jobfilter key then
    let f_xml := set (Element cls) "plugin" "view-job-filters" in
    f_data <- py_get jobfilters key ;;
    f_xml' <- convert_mapping_to_xml f_xml f_data mapping true ;;
    Ok (SubElement job_filter_xml f_xml')
  else Ok job_filter_xml.

(** The body of [for jobfilter in jobfilters:]. *)
Definition filter_body (jobfilters : value) (job_filter_xml : element)
           (jobfilter : value) : result element :=
  x <- filter_block jobfilters "most-recent"
         "hudson.views.MostRecentJobsFilter" mapping_most_recent
         job_filter_xml jobfilter ;;
  x <- filter_block jobfilters "build-duration"
         "hudson.views.BuildDurationFilter" mapping_build_duration
         x jobfilter ;;
  x <- filter_block jobfilters "build-trend"
         "hudson.views.BuildTrendFilter" mapping_build_trend
         x jobfilter ;;
  filter_block jobfilters "job-status"
    "hudson.views.JobStatusFilter" mapping_job_status
    x jobfilter.

Definition job_filters (job_filter_xml : element) (jobfilters : value)
  : result element :=
  keys <- py_iter jobfilters ;;
  for_each (filter_body jobfilters) keys job_filter_xml.

(** The body of [for column in columns:]. *)
Definition column_body (c_xml : element) (column : value) : result element :=
  found <- resolve column ;;
  match found with
  | Some cls => Ok (SubElement c_xml (Element cls))
  | None => Ok c_xml
  end.

Definition columns_xml (c_xml : element) (columns : value) : result element :=
  cols <- py_iter columns ;;
  for_each column_body cols c_xml.

Definition root_xml (data : dict) : result element :=
  let root := Element "hudson.model.ListView" in
  name <- getitem data "name" ;;
  let root := SubElement root (set_text (Element "name") name) in
  let desc_text := get data "description" VNone in
  let root :=
    if is_None desc_text then root
    else SubElement root (set_text (Element "description") desc_text) in

  let filterExecutors := get data "filter-executors" (VBool false) in
  let root :=
    SubElement root (set_text (Element "filterExecutors") (true_false filterExecutors)) in

  let filterQueue := get data "filter-queue" (VBool false) in
  let root :=
    SubElement root (set_text (Element "filterQueue") (true_false filterQueue)) in

  let root :=
    SubElement root
      (set (Element "properties") "class" "hudson.model.View$PropertyList") in

  let jobnames := get data "job-name" VNone in
  let jn_xml :=
    SubElement (Element "jobNames")
      (set (Element "comparator") "class" "hudson.util.CaseInsensitiveComparator") in
  jn_xml <- job_names jn_xml jobnames ;;
  let root := SubElement root jn_xml in

  let jobfilters := get data "job-filters" (VList []) in
  job_filter_xml <- job_filters (Element "jobFilters") jobfilters ;;
  let root := SubElement root job_filter_xml in

  let columns := get data "columns" (VList []) in
  c_xml <- columns_xml (Element "columns") columns ;;
  let root := SubElement root c_xml in

  let regex := get data "regex" VNone in
  let root :=
    if is_None regex then root
    else SubElement root (set_text (Element "includeRegex") regex) in

  let recurse := get data "recurse" (VBool false) in
  let root := SubElement root (set_text (Element "recurse") (true_false recurse)) in

  let statusfilter := get data "status-filter" VNone in
  let root :=
    if is_None statusfilter then root
    else SubElement root (set_text (Element "statusFilter") (true_false statusfilter)) in

  Ok root.

End RootXml.

(** ** The helper as the module binds it *)

(** [view_list.py] imports [xml.etree.ElementTree] and
    [jenkins_jobs.modules.base] and defines [COLUMN_DICT] and [List]:
    the name [convert_mapping_to_xml] is bound nowhere in the module, so
    calling it raises [NameError], whatever the arguments. *)
Definition convert_mapping_to_xml (parent : element) (data : value)
           (mapping : list field) (fail_required : bool) : result element :=
  Err (NameError "convert_mapping_to_xml").

(** [root_xml] as the module runs it. *)
Definition compile (py_repr : value -> string) (data : dict) : result element :=
  root_xml py_repr convert_mapping_to_xml data.

(** ** Observing the tree *)

(** The first child of [e] with tag [t], as [e.find(t)] returns it. *)
Definition child (t : string) (e : element) : option element :=
  find (fun c => String.eqb (tag c) t) (children e).

Definition add_children (e : element) (cs : list element) : element :=
  mkElement (tag e) (attrib e) (text e) (children e ++ cs).

(** The elements of an iterable, nothing for a value that has none. *)
Definition items (v : value) : list value :=
  match py_iter v with
  | Ok l => l
  | Err _ => []
  end.

(** An element present only when [v] is not [None]. *)
Definition optional (t : string) (v txt : value) : list element :=
  if is_None v then [] else [set_text (Element t) txt].

(** What one filter block contributes for the key [jobfilter]. *)
Definition block_output
           (cmx : element -> value -> list field -> bool -> result element)
           (jobfilters jobfilter : value) (b : string * string * list field)
  : list element :=
  let '(key, cls, mapping) := b in
  if eq_str jobfilter key then
    match (f_data <- py_get jobfilters key ;;
           cmx (set (Element cls) "plugin" "view-job-filters") f_data mapping true)
    with
    | Ok f => [f]
    | Err _ => []
    end
  else [].

Definition filter_output
           (cmx : element -> value -> list field -> bool -> result element)
           (jobfilters jobfilter : value) : list element :=
  flat_map (block_output cmx jobfilters jobfilter) filter_blocks.

Definition column_output (column : value) : list element :=
  match resolve column with
  | Ok (Some cls) => [Element cls]
  | _ => []
  end.

(** The element a recognised column name stands for. *)
Definition column_element (name : string) : list element :=
  match assoc COLUMN_DICT name with
  | Some cls => [Element cls]
  | None => []
  end.

(** The tree [root_xml] returns when it returns one, written out child by
    child (see [root_xml_view_tree]). *)
Definition view_tree (py_repr : value -> string)
           (cmx : element -> value -> list field -> bool -> result element)
           (data : dict) : element :=
  let desc_text := get data "description" VNone in
  let jobfilters := get data "job-filters" (VList []) in
  let regex := get data "regex" VNone in
  let statusfilter := get data "status-filter" VNone in
  mkElement "hudson.model.ListView" [] VNone
    ([set_text (Element "name") (get data "name" VNone)]
       ++ optional "description" desc_text desc_text
       ++ [ set_text (Element "filterExecutors")
              (true_false (get data "filter-executors" (VBool false)));
            set_text (Element "filterQueue")
              (true_false (get data "filter-queue" (VBool false)));
            mkElement "properties" [("class", "hudson.model.View$PropertyList")]
              VNone [];
            mkElement "jobNames" [] VNone
              (mkElement "comparator"
                 [("class", "hudson.util.CaseInsensitiveComparator")] VNone []
                 :: map (fun jobname =>
                           set_text (Element "string") (VStr (py_str py_repr jobname)))
                      (items (get data "job-name" VNone)));
            mkElement "jobFilters" [] VNone
              (flat_map (filter_output cmx jobfilters) (items jobfilters));
            mkElement "columns" [] VNone
              (flat_map column_output (items (get data "columns" (VList [])))) ]
       ++ optional "includeRegex" regex regex
       ++ [set_text (Element "recurse") (true_false (get data "recurse" (VBool false)))]
       ++ optional "statusFilter" statusfilter (true_false statusfilter)).

(** The keys of the configuration that [root_xml] reads. *)
Definition config_keys : list string :=
  [ "name"; "description"; "filter-executors"; "filter-queue"; "job-name";
    "job-filters"; "columns"; "regex"; "recurse"; "status-filter" ].

(** ** Filter types *)


(** Tag and mapping of a filter-type key. *)
Fixpoint find_block (bs : list (string * string * list field)) (key : string)
  : option (string * list field) :=
  match bs with
  | [] => None
  | (k, cls, mapping) :: rest =>
      if String.eqb key k then Some (cls, mapping) else find_block rest key
  end.

(** The tag emitted for one key of [job-filters]: none for a key that names
    no filter type. *)
Definition filter_class (jobfilter : value) : list string :=
  match jobfilter with
  | VStr s =>
      match find_block filter_blocks s with
      | Some (cls, _) => [cls]
      | None => []
      end
  | _ => []
  end.

(** The filter types in the order the specification lists them. *)
Definition canonical_order : list string :=
  ["most-recent"; "build-duration"; "build-trend"; "job-status"].


(** [jobfilter] names a filter type. *)
Definition recognised (jobfilter : value) : bool :=
  match filter_class jobfilter with
  | [] => false
  | _ => true
  end.

(** The exception a block ends in once its key is matched: a value that is
    no dict has no [get]; on a dict the call of the helper is reached. *)
Definition filter_error (jobfilters : value) : error :=
  match jobfilters with
  | VDict _ => NameError "convert_mapping_to_xml"
  | _ => AttributeError
  end.

(** Two values of [job-filters] equal as Python compares them: the same
    value, or two records that map the same keys to the same values, in
    whatever order. *)
Definition same_record (v1 v2 : option value) : Prop :=
  v1 = v2 \/
  exists fs1 fs2,
    v1 = Some (VDict fs1) /\ v2 = Some (VDict fs2) /\
    forall k, lookup fs1 k = lookup fs2 k.

(** Two configurations equal as Python dicts, whatever the order of their
    keys and of the keys of their [job-filters] records. *)
Definition same_config (d1 d2 : dict) : Prop :=
  (forall k, k <> "job-filters" -> lookup d1 k = lookup d2 k) /\
  same_record (lookup d1 "job-filters") (lookup d2 "job-filters").

(** The optional fields and the elements they are written to. *)
Definition optional_fields : list (string * string) :=
  [ ("description", "description"); ("regex", "includeRegex");
    ("status-filter", "statusFilter") ].


(** A [repr] for the concrete configurations below, none of which reaches
    it. *)
Definition repr_unused (v : value) : string := "".

(** ** Sample configurations *)

Definition cfg_v1 : dict := [("name", VStr "v1")].

Definition cfg_v2 : dict :=
  [ ("name", VStr "v2");
    ("job-filters", VDict [("most-recent", VDict [("max-to-include", VInt 5)])]) ].

(** A record of two keys that name no filter type. *)
Definition cfg_unknown_filters : dict :=
  [ ("name", VStr "v");
    ("job-filters", VDict [("newest", VDict []); ("oldest", VDict [])]) ].

(** The same configuration, with both records in the other order. *)
Definition cfg_unknown_filters_swapped : dict :=
  [ ("job-filters", VDict [("oldest", VDict []); ("newest", VDict [])]);
    ("name", VStr "v") ].

Definition cfg_described : dict :=
  [ ("name", VStr "v"); ("description", VStr "") ].

Definition cfg_null_description : dict :=
  [ ("name", VStr "v"); ("description", VNone) ].

Definition cfg_columns : dict :=
  [ ("name", VStr "v");
    ("columns", VList [VStr "job"; VStr "bogus"; VStr "status"]) ].

(** A [job-status] filter with a boolean field. *)
Definition cfg_flags : dict :=
  [ ("name", VStr "v"); ("filter-executors", VInt 1); ("status-filter", VBool false);
    ("job-filters", VDict [("job-status", VDict [("failed", VBool true)])]) ].

Definition cfg_flag_values : dict :=
  [ ("name", VStr "v"); ("filter-executors", VInt 1); ("status-filter", VBool false) ].

(** ** Stages of [root_xml], for the properties beyond the claims *)

(** [v] can be walked by a [for] statement. *)
Definition iterable (v : value) : bool :=
  match py_iter v with
  | Ok _ => true
  | Err _ => false
  end.

(** [v] can be tested with [in COLUMN_DICT]. *)
Definition hashable (v : value) : bool :=
  match v with
  | VList _ | VDict _ => false
  | _ => true
  end.

(** The first child of [jobNames]. *)
Definition comparator : element :=
  mkElement "comparator" [("class", "hudson.util.CaseInsensitiveComparator")]
    VNone [].

(** An element with text ['true' if v else 'false']. *)
Definition flag_element (t : string) (v : value) : element :=
  mkElement t [] (VStr (if truthy v then "true" else "false")) [].

(** The configuration key and the element of each of the four flags, with
    the default the source gives [get]. *)
Definition flags : list (string * string * value) :=
  [ ("filter-executors", "filterExecutors", VBool false);
    ("filter-queue", "filterQueue", VBool false);
    ("recurse", "recurse", VBool false);
    ("status-filter", "statusFilter", VNone) ].

(** The tags of the root's children, as the source appends them. *)
Definition root_tags (data : dict) : list string :=
  ["name"]
    ++ (if is_None (get data "description" VNone) then [] else ["description"])
    ++ ["filterExecutors"; "filterQueue"; "properties"; "jobNames"; "jobFilters";
        "columns"]
    ++ (if is_None (get data "regex" VNone) then [] else ["includeRegex"])
    ++ ["recurse"]
    ++ (if is_None (get data "status-filter" VNone) then [] else ["statusFilter"]).

(** No key of [keys] names a filter type. *)
Definition unfiltered (keys : list value) : Prop :=
  forall k, In k keys -> filter_class k = [].

(** More sample configurations. *)

Definition cfg_jobs : dict :=
  [ ("name", VStr "v"); ("job-name", VList [VStr "build"; VInt 7]) ].

Definition cfg_jobs_string : dict :=
  [ ("name", VStr "v"); ("job-name", VStr "ab") ].

Definition cfg_jobs_accent : dict :=
  [ ("name", VStr "v"); ("job-name", VStr "né") ].

Definition cfg_jobs_scalar : dict :=
  [ ("name", VStr "v"); ("job-name", VInt 3) ].

Definition cfg_regex : dict :=
  [ ("name", VStr "v"); ("regex", VStr "^a.*") ].

Definition cfg_quoted_flag : dict :=
  [ ("name", VStr "v"); ("recurse", VStr "false") ].

Definition cfg_filter_list : dict :=
  [ ("name", VStr "v"); ("job-filters", VList [VStr "other"]) ].

(** A [build-trend] block after a key that names no filter type. *)
Definition cfg_trend : dict :=
  [ ("name", VStr "v");
    ("job-filters", VDict [("newest", VDict []); ("build-trend", VDict [])]) ].

Definition cfg_null_filters : dict :=
  [ ("name", VStr "v"); ("job-filters", VNone) ].

Definition cfg_bad_column : dict :=
  [ ("name", VStr "v"); ("columns", VList [VStr "job"; VList []]) ].

Definition cfg_reordered : dict :=
  [ ("description", VStr ""); ("name", VStr "v") ].

(** * Properties *)

(** ** Trees and loops *)

Lemma add_children_nil (e : element) : add_children e [] = e.
Proof.
  destruct e; unfold add_children; simpl. now rewrite app_nil_r.
Qed.

Lemma add_children_app (e : element) (l1 l2 : list element) :
  add_children (add_children e l1) l2 = add_children e (l1 ++ l2).
Proof.
  unfold add_children; simpl. now rewrite app_assoc.
Qed.

Lemma SubElement_add (e c : element) : SubElement e c = add_children e [c].
Proof. reflexivity. Qed.

(** A loop whose body only appends children appends the concatenation of
    what each round appends; [Q] collects what success of a round tells. *)
Lemma for_each_children {A : Type} (body : element -> A -> result element)
      (out : A -> list element) (Q : A -> Prop) :
  (forall x a x', body x a = Ok x' -> x' = add_children x (out a) /\ Q a) ->
  forall xs x x',
    for_each body xs x = Ok x' ->
    x' = add_children x (flat_map out xs) /\ Forall Q xs.
Proof.
  intros Hbody xs; induction xs as [|a xs IH]; simpl; intros x x' H.
  - inversion H; subst. now rewrite add_children_nil.
  - destruct (body x a) as [x1|e] eqn:E; simpl in H; [|discriminate].
    apply Hbody in E as [-> Qa]. apply IH in H as [-> Qs].
    rewrite add_children_app. auto.
Qed.

Lemma fold_left_SubElement {A : Type} (f : A -> element) (xs : list A) (x : element) :
  fold_left (fun y a => SubElement y (f a)) xs x = add_children x (map f xs).
Proof.
  revert x; induction xs as [|a xs IH]; simpl; intros x.
  - now rewrite add_children_nil.
  - rewrite IH, SubElement_add, add_children_app. reflexivity.
Qed.

Lemma lookup_get (d1 d2 : dict) (k : string) (dflt : value) :
  lookup d1 k = lookup d2 k -> get d1 k dflt = get d2 k dflt.
Proof. unfold get; now intros ->. Qed.

Lemma column_body_output (x : element) (column : value) (x' : element) :
  column_body x column = Ok x' ->
  x' = add_children x (column_output column) /\ True.
Proof.
  unfold column_body, column_output.
  destruct (resolve column) as [[cls|]|e]; simpl; intros H; inversion H; subst.
  - now rewrite SubElement_add.
  - now rewrite add_children_nil.
Qed.

Lemma column_output_name (name : string) :
  column_output (VStr name) = column_element name.
Proof.
  unfold column_output, column_element; simpl.
  now destruct (assoc COLUMN_DICT name).
Qed.

Lemma column_loop_names (names : list string) (x : element) :
  for_each column_body (map VStr names) x
  = Ok (add_children x (flat_map column_element names)).
Proof.
  revert x; induction names as [|n names IH]; intros x.
  - simpl. now rewrite add_children_nil.
  - cbn [map for_each flat_map]. unfold column_body at 1, column_element at 1.
    cbn [resolve bind].
    destruct (assoc COLUMN_DICT n) as [cls|]; cbn [bind app].
    + rewrite IH, SubElement_add, add_children_app. reflexivity.
    + apply IH.
Qed.

Lemma columns_of_names (x : element) (names : list string) :
  columns_xml x (VList (map VStr names))
  = Ok (add_children x (flat_map column_element names)).
Proof.
  unfold columns_xml. cbn [py_iter bind]. apply column_loop_names.
Qed.

Section RootXmlFacts.

Variable py_repr : value -> string.
Variable cmx : element -> value -> list field -> bool -> result element.

Lemma filter_block_output (jobfilters : value) (key cls : string)
      (mapping : list field) (x : element) (jobfilter : value) (x' : element) :
  filter_block cmx jobfilters key cls mapping x jobfilter = Ok x' ->
  x' = add_children x (block_output cmx jobfilters jobfilter (key, cls, mapping)).
Proof.
  unfold filter_block, block_output.
  destruct (eq_str jobfilter key).
  - destruct (py_get jobfilters key) as [f_data|e]; simpl; [|discriminate].
    destruct (cmx _ f_data mapping true) as [f|e]; simpl; [|discriminate].
    intros H; inversion H. now rewrite SubElement_add.
  - intros H; inversion H. now rewrite add_children_nil.
Qed.

Lemma filter_body_output (jobfilters : value) (x : element) (jobfilter : value)
      (x' : element) :
  filter_body cmx jobfilters x jobfilter = Ok x' ->
  x' = add_children x (filter_output cmx jobfilters jobfilter) /\ True.
Proof.
  unfold filter_body. intros H.
  destruct (filter_block cmx jobfilters "most-recent" _ _ x jobfilter)
    as [x1|] eqn:E1; simpl in H; [|discriminate].
  destruct (filter_block cmx jobfilters "build-duration" _ _ x1 jobfilter)
    as [x2|] eqn:E2; simpl in H; [|discriminate].
  destruct (filter_block cmx jobfilters "build-trend" _ _ x2 jobfilter)
    as [x3|] eqn:E3; simpl in H; [|discriminate].
  apply filter_block_output in E1, E2, E3, H. subst.
  rewrite !add_children_app. split; [|exact I].
  unfold filter_output, filter_blocks, flat_map.
  now rewrite app_nil_r, !app_assoc.
Qed.

Lemma job_names_output (jobnames : value) (x x' : element) :
  job_names py_repr x jobnames = Ok x' ->
  x' = add_children x
         (map (fun jobname =>
                 set_text (Element "string") (VStr (py_str py_repr jobname)))
              (items jobnames)).
Proof.
  unfold job_names, items.
  destruct jobnames; simpl; intros H; inversion H;
    try (now rewrite add_children_nil);
    now rewrite fold_left_SubElement.
Qed.

(** A tree returned by [root_xml] is the one [view_tree] writes out. *)
Lemma root_xml_view_tree (data : dict) (root : element) :
  root_xml py_repr cmx data = Ok root -> root = view_tree py_repr cmx data.
Proof.
  unfold root_xml, getitem. intros H.
  destruct (lookup data "name") as [name|] eqn:En; cbn [bind] in H; [|discriminate].
  destruct (job_names py_repr _ (get data "job-name" VNone)) as [jn|] eqn:Ej;
    cbn [bind] in H; [|discriminate].
  destruct (job_filters cmx _ (get data "job-filters" (VList []))) as [jf|] eqn:Ef;
    cbn [bind] in H; [|discriminate].
  destruct (columns_xml _ (get data "columns" (VList []))) as [c|] eqn:Ec;
    cbn [bind] in H; [|discriminate].
  apply job_names_output in Ej; subst jn.
  unfold job_filters in Ef.
  unfold columns_xml in Ec.
  unfold view_tree, items, optional.
  destruct (py_iter (get data "job-filters" (VList []))) as [keys|];
    cbn [bind] in Ef; [|discriminate].
  destruct (py_iter (get data "columns" (VList []))) as [cols|];
    cbn [bind] in Ec; [|discriminate].
  apply (for_each_children _ _ (fun _ => True) (filter_body_output _)) in Ef
    as [-> _].
  apply (for_each_children _ _ (fun _ => True) column_body_output) in Ec
    as [-> _].
  replace (get data "name" VNone) with name by (unfold get; now rewrite En).
  inversion H; subst root; clear H.
  destruct (is_None (get data "description" VNone));
    destruct (is_None (get data "regex" VNone));
    destruct (is_None (get data "status-filter" VNone)); reflexivity.
Qed.

(** [root_xml] sees its argument only through these ten reads. *)
Lemma root_xml_reads (d1 d2 : dict) :
  lookup d1 "name" = lookup d2 "name" ->
  get d1 "description" VNone = get d2 "description" VNone ->
  get d1 "filter-executors" (VBool false) = get d2 "filter-executors" (VBool false) ->
  get d1 "filter-queue" (VBool false) = get d2 "filter-queue" (VBool false) ->
  get d1 "job-name" VNone = get d2 "job-name" VNone ->
  get d1 "job-filters" (VList []) = get d2 "job-filters" (VList []) ->
  get d1 "columns" (VList []) = get d2 "columns" (VList []) ->
  get d1 "regex" VNone = get d2 "regex" VNone ->
  get d1 "recurse" (VBool false) = get d2 "recurse" (VBool false) ->
  get d1 "status-filter" VNone = get d2 "status-filter" VNone ->
  root_xml py_repr cmx d1 = root_xml py_repr cmx d2.
Proof.
  intros Hn Hd He Hq Hj Hf Hc Hr Hu Hs.
  unfold root_xml, getitem.
  now rewrite Hn, Hd, He, Hq, Hj, Hf, Hc, Hr, Hu, Hs.
Qed.

Lemma child_jobFilters (data : dict) :
  child "jobFilters" (view_tree py_repr cmx data)
  = Some (mkElement "jobFilters" [] VNone
            (flat_map (filter_output cmx (get data "job-filters" (VList [])))
                      (items (get data "job-filters" (VList []))))).
Proof.
  unfold child, view_tree, optional.
  destruct (is_None (get data "description" VNone)); reflexivity.
Qed.

Lemma child_columns (data : dict) :
  child "columns" (view_tree py_repr cmx data)
  = Some (mkElement "columns" [] VNone
            (flat_map column_output (items (get data "columns" (VList []))))).
Proof.
  unfold child, view_tree, optional.
  destruct (is_None (get data "description" VNone)); reflexivity.
Qed.

(** C3: a configuration without [name] makes [root_xml] raise [KeyError]
    on that key (the specification's MissingFieldError), so no tree is
    returned; [name] is the only key whose absence alone is an error, as
    [cfg_v1] lacks every other key and is translated; and the first child
    of a returned root is the [name] element, without attributes or
    children, whose text is the configured value as it stands. *)
Theorem name_is_required :
  (forall data,
      lookup data "name" = None ->
      root_xml py_repr cmx data = Err (KeyError "name")) /\
  (forall k,
      k <> "name" ->
      lookup cfg_v1 k = None /\
      exists root, root_xml py_repr cmx cfg_v1 = Ok root) /\
  (forall data root,
      root_xml py_repr cmx data = Ok root ->
      exists v c rest,
        lookup data "name" = Some v /\
        children root = c :: rest /\
        c = mkElement "name" [] v [] /\
        child "name" root = Some c /\
        text c = v).
Proof.
  split; [|split].
  - intros data H. unfold root_xml, getitem. now rewrite H.
  - intros k Hk. split.
    + unfold cfg_v1; cbn [lookup].
      destruct (String.eqb_spec "name" k) as [E|_]; [congruence|reflexivity].
    + eexists. reflexivity.
  - intros data root H.
    pose proof (root_xml_view_tree _ _ H) as ->.
    unfold root_xml, getitem in H.
    destruct (lookup data "name") as [v|] eqn:En; [|discriminate].
    exists v. unfold child, view_tree. cbn [children app].
    replace (get data "name" VNone) with v by (unfold get; now rewrite En).
    do 2 eexists. split; [reflexivity|]. split; [reflexivity|].
    repeat split.
Qed.

(** C4: for the configuration that only sets [name] to v1, [root_xml]
    returns a root whose children are, in order, [name] with text v1,
    [filterExecutors] and [filterQueue] with text false, the [properties]
    shell with its class attribute, [jobNames] holding only the comparator,
    an empty [jobFilters], an empty [columns], and [recurse] with text
    false; there is no [description], [includeRegex] or [statusFilter]
    child. *)
Theorem name_only_tree :
  exists root,
    root_xml py_repr cmx cfg_v1 = Ok root /\
    tag root = "hudson.model.ListView" /\
    children root
    = [ mkElement "name" [] (VStr "v1") [];
        mkElement "filterExecutors" [] (VStr "false") [];
        mkElement "filterQueue" [] (VStr "false") [];
        mkElement "properties" [("class", "hudson.model.View$PropertyList")]
          VNone [];
        mkElement "jobNames" [] VNone
          [ mkElement "comparator"
              [("class", "hudson.util.CaseInsensitiveComparator")] VNone [] ];
        mkElement "jobFilters" [] VNone [];
        mkElement "columns" [] VNone [];
        mkElement "recurse" [] (VStr "false") [] ] /\
    child "description" root = None /\
    child "includeRegex" root = None /\
    child "statusFilter" root = None.
Proof.
  eexists. split; [reflexivity|]. repeat split.
Qed.

(** C6: when [root_xml] returns a tree, a configuration without the key
    [description] gives a tree with no [description] child, and one whose
    [description] is the empty string gives a [description] child with
    empty text. *)
Theorem description_presence (data : dict) (root : element) :
  root_xml py_repr cmx data = Ok root ->
  (lookup data "description" = None ->
   forall c, In c (children root) -> tag c <> "description") /\
  (lookup data "description" = Some (VStr "") ->
   child "description" root = Some (mkElement "description" [] (VStr "") [])).
Proof.
  intros H. apply root_xml_view_tree in H. subst root.
  unfold child, view_tree, optional. cbn [children]. split; intros Hd.
  - unfold get at 1 2. rewrite Hd. cbn [is_None app].
    intros c Hc.
    destruct (is_None (get data "regex" VNone));
      destruct (is_None (get data "status-filter" VNone));
      cbn [app In] in Hc;
      repeat (destruct Hc as [<-|Hc]; [cbn; discriminate|]);
      destruct Hc.
  - unfold get at 1 2 3. rewrite Hd. reflexivity.
Qed.

(** C8: the registry has the eight entries status, weather, job,
    last-success, last-failure, last-duration, build-button and
    last-stable; the loop over a list of column names never fails and
    appends, in list order, one childless element per recognised name,
    tagged as the registry says, and nothing for any other name; that is
    the [columns] element of the tree [root_xml] returns. *)
Theorem columns_follow_registry :
  map fst COLUMN_DICT
  = [ "status"; "weather"; "job"; "last-success"; "last-failure";
      "last-duration"; "build-button"; "last-stable" ] /\
  (forall name,
      column_element name
      = match assoc COLUMN_DICT name with
        | Some cls => [mkElement cls [] VNone []]
        | None => []
        end) /\
  (forall names x,
      columns_xml x (VList (map VStr names))
      = Ok (add_children x (flat_map column_element names))) /\
  (forall data root names,
      get data "columns" (VList []) = VList (map VStr names) ->
      root_xml py_repr cmx data = Ok root ->
      child "columns" root
      = Some (mkElement "columns" [] VNone (flat_map column_element names))).
Proof.
  split; [reflexivity|]. split; [reflexivity|]. split.
  - intros names x. apply columns_of_names.
  - intros data root names Hc H.
    apply root_xml_view_tree in H. subst root.
    rewrite child_columns, Hc. unfold items; cbn [py_iter].
    do 2 f_equal. clear Hc.
    induction names as [|n names IH]; [reflexivity|].
    cbn [map flat_map]. now rewrite IH, column_output_name.
Qed.

(** C10: for [description], [regex] and [status-filter], a configuration
    that stores [None] under the key is translated exactly as one that
    lacks the key (and agrees on every other key), and a tree returned for
    it has no child with the tag of that field: whether the element is
    emitted depends on the value not being [None], not on the key being
    there. *)
Theorem null_is_absent (k t : string) (d1 d2 : dict) :
  In (k, t) optional_fields ->
  lookup d1 k = Some VNone ->
  lookup d2 k = None ->
  (forall k', k' <> k -> lookup d1 k' = lookup d2 k') ->
  root_xml py_repr cmx d1 = root_xml py_repr cmx d2 /\
  forall root,
    root_xml py_repr cmx d1 = Ok root ->
    child t root = None /\
    forall c, In c (children root) -> tag c <> t.
Proof.
  intros Hk H1 H2 Hother.
  assert (Hk' : (k, t) = ("description", "description") \/
                (k, t) = ("regex", "includeRegex") \/
                (k, t) = ("status-filter", "statusFilter"))
    by (cbn [optional_fields In] in Hk; intuition auto).
  assert (Hsame : get d1 k VNone = get d2 k VNone)
    by (unfold get; now rewrite H1, H2).
  assert (Hnone : get d1 k VNone = VNone) by (unfold get; now rewrite H1).
  split.
  - destruct Hk' as [E|[E|E]]; inversion E; subst;
      apply root_xml_reads;
      solve [ exact Hsame
            | apply Hother; discriminate
            | apply lookup_get, Hother; discriminate ].
  - intros root H. apply root_xml_view_tree in H. subst root.
    unfold child, view_tree, optional. cbn [children].
    destruct Hk' as [E|[E|E]]; inversion E; subst; rewrite Hnone; cbn [is_None app];
      (split;
       [ destruct (is_None (get d1 "description" VNone));
         destruct (is_None (get d1 "regex" VNone));
         destruct (is_None (get d1 "status-filter" VNone)); reflexivity
       | intros c Hc;
         destruct (is_None (get d1 "description" VNone));
         destruct (is_None (get d1 "regex" VNone));
         destruct (is_None (get d1 "status-filter" VNone));
         cbn [app In] in Hc;
         repeat (destruct Hc as [<-|Hc]; [cbn; discriminate|]);
         destruct Hc ]).
Qed.



End RootXmlFacts.

(** ** Exceptions of the stages *)


Lemma py_iter_errors (v : value) (e : error) :
  py_iter v = Err e -> e = TypeError.
Proof. destruct v; cbn; intros H; inversion H; reflexivity. Qed.

(** ** The stages, evaluated *)

Lemma split_points_ascii (s : string) :
  forallb is_ascii (list_ascii_of_string s) = true ->
  split_points s
  = (EmptyString, map (fun c => String c EmptyString) (list_ascii_of_string s)).
Proof.
  induction s as [|c s IH]; cbn [list_ascii_of_string forallb split_points map];
    [reflexivity|].
  intros H. apply andb_true_iff in H as [Hc Hs]. rewrite (IH Hs).
  replace (is_continuation c) with false; [reflexivity|].
  destruct c as [b0 b1 b2 b3 b4 b5 b6 b7]. cbn in Hc |- *.
  now destruct b7.
Qed.

(** In a string of bytes below 128 every byte is a code point. *)
Lemma code_points_ascii (s : string) :
  forallb is_ascii (list_ascii_of_string s) = true ->
  code_points s = map (fun c => String c EmptyString) (list_ascii_of_string s).
Proof.
  intros H. unfold code_points. now rewrite (split_points_ascii s H).
Qed.

(** The code points of a string make up the string. *)
Lemma code_points_concat (s : string) :
  String.concat EmptyString (code_points s) = s.
Proof.
  assert (Hc : forall p l, String.concat EmptyString (p :: l)
                           = (p ++ String.concat EmptyString l)%string).
  { intros p [|q l]; cbn [String.concat]; [|reflexivity].
    clear. induction p as [|c p IH]; cbn; [reflexivity|now f_equal]. }
  assert (H : forall s, (fst (split_points s)
                         ++ String.concat EmptyString (snd (split_points s)))%string = s).
  { clear -Hc. induction s as [|c s IH]; [reflexivity|].
    cbn [split_points]. destruct (split_points s) as [pre pts].
    cbn [fst snd] in IH.
    destruct (is_continuation c); cbn [fst snd].
    - cbn. now rewrite IH.
    - rewrite Hc. cbn. now rewrite IH. }
  unfold code_points. specialize (H s).
  destruct (split_points s) as [pre pts]. cbn [fst snd] in H.
  destruct pre; [exact H|]. now rewrite Hc.
Qed.

Lemma filter_class_nil (k : value) (key : string) :
  In key canonical_order -> filter_class k = [] -> eq_str k key = false.
Proof.
  intros Hk. destruct k as [| | |s| |]; try reflexivity.
  cbn [filter_class find_block filter_blocks eq_str].
  destruct (String.eqb_spec s "most-recent") as [->|N1]; [discriminate|].
  destruct (String.eqb_spec s "build-duration") as [->|N2]; [discriminate|].
  destruct (String.eqb_spec s "build-trend") as [->|N3]; [discriminate|].
  destruct (String.eqb_spec s "job-status") as [->|N4]; [discriminate|].
  intros _. apply String.eqb_neq.
  cbn [canonical_order In] in Hk.
  destruct Hk as [<-|[<-|[<-|[<-|[]]]]]; assumption.
Qed.

(** The column loop stops at the first entry that cannot be hashed. *)
Lemma column_loop_eval (cols : list value) (x : element) :
  for_each column_body cols x
  = if forallb hashable cols
    then Ok (add_children x (flat_map column_output cols))
    else Err TypeError.
Proof.
  revert x; induction cols as [|c cols IH]; intros x.
  - cbn. now rewrite add_children_nil.
  - cbn [for_each forallb flat_map]. unfold column_body at 1, column_output at 1.
    destruct (resolve c) as [[cls|]|e] eqn:Er; cbn [bind].
    + replace (hashable c) with true by (destruct c; cbn [resolve] in Er; cbn [hashable]; congruence).
      cbn [andb]. rewrite IH. destruct (forallb hashable cols); [|reflexivity].
      now rewrite SubElement_add, add_children_app.
    + replace (hashable c) with true by (destruct c; cbn [resolve] in Er; cbn [hashable]; congruence).
      cbn [andb app]. apply IH.
    + replace (hashable c) with false by (destruct c; cbn [resolve] in Er; cbn [hashable]; congruence).
      cbn [andb]. destruct c; cbn [resolve] in Er; congruence.
Qed.

Lemma columns_xml_eval (x : element) (columns : value) :
  columns_xml x columns
  = if iterable columns && forallb hashable (items columns)
    then Ok (add_children x (flat_map column_output (items columns)))
    else Err TypeError.
Proof.
  unfold columns_xml, iterable, items.
  destruct columns; cbn [py_iter bind andb]; try reflexivity;
    apply column_loop_eval.
Qed.

Section RootXmlStages.

Variable py_repr : value -> string.
Variable cmx : element -> value -> list field -> bool -> result element.

Lemma job_names_eval (x : element) (jobnames : value) :
  job_names py_repr x jobnames
  = if is_None jobnames || iterable jobnames
    then Ok (add_children x
               (map (fun jobname =>
                       set_text (Element "string") (VStr (py_str py_repr jobname)))
                    (items jobnames)))
    else Err TypeError.
Proof.
  unfold job_names, iterable, items.
  destruct jobnames; cbn [is_None py_iter bind orb map]; try reflexivity;
    now rewrite ?add_children_nil, ?fold_left_SubElement.
Qed.

Lemma filter_body_unfiltered (jobfilters : value) (x : element) (k : value) :
  filter_class k = [] -> filter_body cmx jobfilters x k = Ok x.
Proof.
  intros Hk. unfold filter_body, filter_block.
  rewrite !(filter_class_nil k)
    by first [assumption | cbn; auto 6]. reflexivity.
Qed.

Lemma filter_output_unfiltered (jobfilters : value) (k : value) :
  filter_class k = [] -> filter_output cmx jobfilters k = [].
Proof.
  intros Hk. unfold filter_output, filter_blocks, block_output. cbn [flat_map].
  rewrite !(filter_class_nil k)
    by first [assumption | cbn; auto 6]. reflexivity.
Qed.

Lemma filter_loop_unfiltered (jobfilters : value) (keys : list value) (x : element) :
  unfiltered keys ->
  for_each (filter_body cmx jobfilters) keys x = Ok x /\
  flat_map (filter_output cmx jobfilters) keys = [].
Proof.
  induction keys as [|k keys IH]; intros Hu; [now split|].
  cbn [for_each flat_map].
  rewrite filter_body_unfiltered, filter_output_unfiltered by (apply Hu; now left).
  cbn [bind app]. apply IH. intros k' Hk'. apply Hu. now right.
Qed.

(** A value that is no dict offers no [get]: no block can complete. *)
Lemma filter_output_not_dict (jobfilters : value) (k : value) :
  (forall fs, jobfilters <> VDict fs) -> filter_output cmx jobfilters k = [].
Proof.
  intros Hn. unfold filter_output, filter_blocks, block_output. cbn [flat_map].
  destruct jobfilters; try (now elim (Hn d));
    cbn [py_get bind]; repeat destruct (eq_str k _); reflexivity.
Qed.

End RootXmlStages.

Lemma for_each_rounds {A S : Type} (body : S -> A -> result S) (xs : list A)
      (s s' : S) :
  for_each body xs s = Ok s' ->
  forall a, In a xs -> exists s1 s2, body s1 a = Ok s2.
Proof.
  revert s; induction xs as [|x xs IH]; cbn [for_each In]; intros s H a Ha.
  - destruct Ha.
  - destruct (body s x) as [s1|] eqn:E; cbn [bind] in H; [|discriminate].
    destruct Ha as [<-|Ha]; eauto.
Qed.

Lemma lookup_permutation (d1 d2 : dict) (k : string) :
  NoDup (map fst d1) -> Permutation d1 d2 -> lookup d1 k = lookup d2 k.
Proof.
  intros Hnd Hp. induction Hp as [|[k' v] l l' Hp IH|[k1 v1] [k2 v2] l|l l' l'' H1 IH1 H2 IH2].
  - reflexivity.
  - cbn [lookup]. inversion Hnd; subst. now rewrite IH.
  - cbn [lookup].
    destruct (String.eqb_spec k2 k) as [->|]; destruct (String.eqb_spec k1 k) as [->|];
      try reflexivity.
    cbn [map fst] in Hnd. inversion Hnd as [|? ? Hin _]; subst.
    elim Hin. now left.
  - rewrite IH1 by assumption. apply IH2.
    eapply Permutation_NoDup; [|exact Hnd]. now apply Permutation_map.
Qed.





(** ** The module as it runs: the helper is unbound *)


Lemma lookup_keys (fs : dict) (k : string) :
  lookup fs k <> None <-> In k (map fst fs).
Proof.
  induction fs as [|[k' v] fs IH]; cbn [lookup map fst In].
  - split; [congruence|tauto].
  - destruct (String.eqb_spec k' k) as [->|N].
    + split; [now left|discriminate].
    + rewrite IH. split; [now right|]. intros [E|H]; [congruence|exact H].
Qed.


(** One round of the filter loop: a key that names a filter type ends it,
    in [AttributeError] when [job-filters] is no dict and in [NameError]
    when it is one; any other key changes nothing. *)
Lemma filter_body_eval (jobfilters : value) (x : element) (k : value) :
  filter_body convert_mapping_to_xml jobfilters x k
  = if recognised k then Err (filter_error jobfilters) else Ok x.
Proof.
  destruct k as [| | |s| |]; try reflexivity.
  unfold filter_body, filter_block, recognised.
  cbn [eq_str filter_class find_block filter_blocks].
  destruct (String.eqb_spec s "most-recent") as [->|_];
    [destruct jobfilters; reflexivity|].
  destruct (String.eqb_spec s "build-duration") as [->|_];
    [destruct jobfilters; reflexivity|].
  destruct (String.eqb_spec s "build-trend") as [->|_];
    [destruct jobfilters; reflexivity|].
  destruct (String.eqb_spec s "job-status") as [->|_];
    [destruct jobfilters; reflexivity|].
  reflexivity.
Qed.

Lemma filter_loop_eval (jobfilters : value) (keys : list value) (x : element) :
  for_each (filter_body convert_mapping_to_xml jobfilters) keys x
  = if existsb recognised keys then Err (filter_error jobfilters) else Ok x.
Proof.
  induction keys as [|k keys IH]; [reflexivity|].
  cbn [for_each existsb]. rewrite filter_body_eval.
  destruct (recognised k); cbn [bind orb]; [reflexivity|apply IH].
Qed.

Lemma job_filters_eval (x : element) (jobfilters : value) :
  job_filters convert_mapping_to_xml x jobfilters
  = if iterable jobfilters
    then if existsb recognised (items jobfilters)
         then Err (filter_error jobfilters) else Ok x
    else Err TypeError.
Proof.
  unfold job_filters, iterable, items.
  destruct (py_iter jobfilters) as [keys|e] eqn:E; cbn [bind].
  - apply filter_loop_eval.
  - apply py_iter_errors in E. now subst.
Qed.

(** Records that map the same keys name the same filter types. *)
Lemma recognised_same_keys (fs1 fs2 : dict) :
  (forall k, lookup fs1 k = lookup fs2 k) ->
  existsb recognised (map (fun kv => VStr (fst kv)) fs1)
  = existsb recognised (map (fun kv => VStr (fst kv)) fs2).
Proof.
  assert (Hdir : forall a b : dict,
             (forall k, lookup a k = lookup b k) ->
             existsb recognised (map (fun kv => VStr (fst kv)) a) = true ->
             existsb recognised (map (fun kv => VStr (fst kv)) b) = true).
  { intros a b Hab H. apply existsb_exists in H as (v & Hv & Hr).
    apply in_map_iff in Hv as ([k w] & <- & Hin). cbn [fst] in *.
    apply existsb_exists. exists (VStr k). split; [|exact Hr].
    assert (Hk : In k (map fst b)).
    { apply lookup_keys. rewrite <- Hab. apply lookup_keys.
      apply in_map_iff. now exists (k, w). }
    apply in_map_iff in Hk as ([k' w'] & E & Hin'). cbn [fst] in E. subst k'.
    apply in_map_iff. now exists (k, w'). }
  intros H.
  destruct (existsb recognised (map (fun kv => VStr (fst kv)) fs1)) eqn:E1;
    destruct (existsb recognised (map (fun kv => VStr (fst kv)) fs2)) eqn:E2;
    try reflexivity.
  - apply (Hdir fs1 fs2 H) in E1. congruence.
  - apply (Hdir fs2 fs1) in E2; [congruence|]. intros k. now rewrite H.
Qed.

Section CompileFacts.

Variable py_repr : value -> string.

(** [compile], stage by stage. *)
Lemma compile_eval (data : dict) :
  compile py_repr data
  = match lookup data "name" with
    | None => Err (KeyError "name")
    | Some _ =>
        let jobnames := get data "job-name" VNone in
        let jobfilters := get data "job-filters" (VList []) in
        let columns := get data "columns" (VList []) in
        if is_None jobnames || iterable jobnames then
          if iterable jobfilters then
            if existsb recognised (items jobfilters)
            then Err (filter_error jobfilters)
            else if iterable columns && forallb hashable (items columns)
                 then Ok (view_tree py_repr convert_mapping_to_xml data)
                 else Err TypeError
          else Err TypeError
        else Err TypeError
    end.
Proof.
  cbv zeta.
  pose proof (root_xml_view_tree py_repr convert_mapping_to_xml data) as Hv.
  revert Hv. unfold compile, root_xml, getitem.
  destruct (lookup data "name"); cbn [bind]; [|reflexivity].
  rewrite job_names_eval.
  destruct (is_None _ || iterable _); cbn [bind]; [|reflexivity].
  rewrite job_filters_eval.
  destruct (iterable (get data "job-filters" (VList []))); [|reflexivity].
  destruct (existsb recognised _); cbn [bind]; [reflexivity|].
  rewrite columns_xml_eval.
  destruct (iterable _ && forallb hashable _); cbn [bind]; [|reflexivity].
  intros Hv. f_equal. now apply Hv.
Qed.





(** C5: for the configuration with [name] v2 and a [most-recent] filter
    whose [max-to-include] is 5, [compile] returns no tree: the block
    reaches the call of [convert_mapping_to_xml], a name the module does
    not bind, and ends in [NameError]. *)
Theorem most_recent_filter_raises :
  compile py_repr cfg_v2 = Err (NameError "convert_mapping_to_xml").
Proof. reflexivity. Qed.

(** C7: for a configuration with a boolean field in a filter block,
    [compile] returns no tree and renders no field: the block ends in
    [NameError] at the call of [convert_mapping_to_xml]. *)
Theorem boolean_filter_field_raises :
  compile py_repr cfg_flags = Err (NameError "convert_mapping_to_xml").
Proof. reflexivity. Qed.

(** C9: two configurations equal as Python dicts (the same values under the
    keys, whatever the order of the keys and of the keys of the
    [job-filters] record) are translated alike: the same tree, child for
    child, or the same exception. *)
Theorem compile_deterministic (d1 d2 : dict) :
  same_config d1 d2 ->
  compile py_repr d1 = compile py_repr d2.
Proof.
  intros [Hk Hf].
  assert (G : forall k dflt, k <> "job-filters" -> get d1 k dflt = get d2 k dflt)
    by (intros; apply lookup_get; auto).
  unfold compile, root_xml, getitem.
  rewrite (Hk "name"), (G "description"), (G "filter-executors"),
    (G "filter-queue"), (G "job-name"), (G "columns"), (G "regex"),
    (G "recurse"), (G "status-filter") by discriminate.
  assert (Hjf : job_filters convert_mapping_to_xml (Element "jobFilters")
                  (get d1 "job-filters" (VList []))
                = job_filters convert_mapping_to_xml (Element "jobFilters")
                    (get d2 "job-filters" (VList []))).
  { unfold get. destruct Hf as [->|(fs1 & fs2 & -> & -> & Hfs)]; [reflexivity|].
    rewrite !job_filters_eval. unfold iterable, items. cbn [py_iter filter_error].
    now rewrite (recognised_same_keys fs1 fs2 Hfs). }
  now rewrite Hjf.
Qed.

End CompileFacts.

(** ** The claims at concrete configurations *)




Lemma name_is_required_witness :
  root_xml repr_unused convert_mapping_to_xml [("description", VStr "no name")]
  = Err (KeyError "name").
Proof.
  apply (proj1 (name_is_required repr_unused convert_mapping_to_xml)).
  reflexivity.
Defined.

Lemma description_presence_witness :
  tag (mkElement "recurse" [] (VStr "false") []) <> "description" /\
  child "description" (view_tree repr_unused convert_mapping_to_xml cfg_described)
  = Some (mkElement "description" [] (VStr "") []).
Proof.
  split.
  - apply (proj1 (description_presence repr_unused convert_mapping_to_xml
                    cfg_v1 _ eq_refl)).
    + reflexivity.
    + cbn. tauto.
  - apply (proj2 (description_presence repr_unused convert_mapping_to_xml
                    cfg_described _ eq_refl)).
    reflexivity.
Defined.

Lemma columns_follow_registry_witness :
  child "columns" (view_tree repr_unused convert_mapping_to_xml cfg_columns)
  = Some (mkElement "columns" [] VNone
            [Element "hudson.views.JobColumn"; Element "hudson.views.StatusColumn"]).
Proof.
  apply (proj2 (proj2 (proj2
           (columns_follow_registry repr_unused convert_mapping_to_xml)))
           cfg_columns _ ["job"; "bogus"; "status"]);
    reflexivity.
Defined.

Lemma compile_deterministic_witness :
  compile repr_unused cfg_unknown_filters
  = compile repr_unused cfg_unknown_filters_swapped.
Proof.
  apply compile_deterministic. split.
  - intros k Hk. unfold cfg_unknown_filters, cfg_unknown_filters_swapped.
    cbn [lookup].
    destruct (String.eqb_spec "job-filters" k) as [E|_]; [congruence|].
    destruct (String.eqb "name" k); reflexivity.
  - right. do 2 eexists. split; [reflexivity|]. split; [reflexivity|].
    intros k. cbn [lookup].
    destruct (String.eqb_spec "newest" k) as [<-|_]; [reflexivity|].
    destruct (String.eqb "oldest" k); reflexivity.
Defined.

Lemma null_is_absent_witness :
  root_xml repr_unused convert_mapping_to_xml cfg_null_description
  = root_xml repr_unused convert_mapping_to_xml [("name", VStr "v")] /\
  child "description" (view_tree repr_unused convert_mapping_to_xml cfg_null_description)
  = None.
Proof.
  assert (H : forall k', k' <> "description" ->
                         lookup cfg_null_description k' = lookup [("name", VStr "v")] k').
  { intros k' Hk. unfold cfg_null_description. cbn [lookup].
    destruct (String.eqb_spec "description" k') as [E|_]; [congruence|reflexivity]. }
  destruct (null_is_absent repr_unused convert_mapping_to_xml
              "description" "description" cfg_null_description [("name", VStr "v")])
    as [Heq Hno]; [cbn; tauto|reflexivity|reflexivity|exact H|].
  split; [exact Heq|]. exact (proj1 (Hno _ eq_refl)).
Defined.

(** * Further properties of [root_xml] *)

Section RootXmlMore.

Variable py_repr : value -> string.
Variable cmx : element -> value -> list field -> bool -> result element.

Ltac view_child data :=
  unfold child, view_tree, optional;
  destruct (is_None (get data "description" VNone));
  destruct (is_None (get data "regex" VNone));
  destruct (is_None (get data "status-filter" VNone));
  reflexivity.

(** X1: the [jobNames] element holds the comparator and then one [string]
    element per entry of a [job-name] list, in list order, each entry
    passed through [str]; with no [job-name], or [None], only the
    comparator. *)
Theorem job_names_in_order (data : dict) (root : element) :
  root_xml py_repr cmx data = Ok root ->
  (forall names,
      get data "job-name" VNone = VList names ->
      child "jobNames" root
      = Some (mkElement "jobNames" [] VNone
                (comparator
                   :: map (fun jobname =>
                             mkElement "string" [] (VStr (py_str py_repr jobname)) [])
                        names))) /\
  (get data "job-name" VNone = VNone ->
   child "jobNames" root = Some (mkElement "jobNames" [] VNone [comparator])).
Proof.
  intros H. apply root_xml_view_tree in H. subst root.
  split; [intros names Hn|intros Hn];
    (replace (child "jobNames" (view_tree py_repr cmx data))
       with (Some (mkElement "jobNames" [] VNone
                     (comparator
                        :: map (fun jobname =>
                                  set_text (Element "string")
                                    (VStr (py_str py_repr jobname)))
                             (items (get data "job-name" VNone)))))
      by (symmetry; view_child data));
    rewrite Hn; reflexivity.
Qed.

(** X2: a [job-name] that is a string is walked character by character,
    that is code point by code point: every character becomes a job name of
    its own, and together they spell the string; in text of bytes below
    128 every byte is such a character. *)
Theorem job_name_string_is_split (data : dict) (root : element) (s : string) :
  root_xml py_repr cmx data = Ok root ->
  get data "job-name" VNone = VStr s ->
  child "jobNames" root
  = Some (mkElement "jobNames" [] VNone
            (comparator
               :: map (fun p => mkElement "string" [] (VStr p) []) (code_points s))) /\
  String.concat EmptyString (code_points s) = s /\
  (forallb is_ascii (list_ascii_of_string s) = true ->
   code_points s = map (fun c => String c EmptyString) (list_ascii_of_string s)).
Proof.
  intros H Hn. apply root_xml_view_tree in H. subst root.
  split; [|split; [apply code_points_concat|apply code_points_ascii]].
  replace (child "jobNames" (view_tree py_repr cmx data))
    with (Some (mkElement "jobNames" [] VNone
                  (comparator
                     :: map (fun jobname =>
                               set_text (Element "string")
                                 (VStr (py_str py_repr jobname)))
                          (items (get data "job-name" VNone)))))
    by (symmetry; view_child data).
  rewrite Hn. unfold items. cbn [py_iter]. unfold chars. rewrite map_map.
  reflexivity.
Qed.

(** X3: with [name] present, a [job-name] that is neither [None] nor
    iterable (a number, a boolean) makes [root_xml] raise [TypeError]. *)
Theorem job_name_scalar_fails (data : dict) (name : value) :
  lookup data "name" = Some name ->
  is_None (get data "job-name" VNone) = false ->
  iterable (get data "job-name" VNone) = false ->
  root_xml py_repr cmx data = Err TypeError.
Proof.
  intros Hn H1 H2. unfold root_xml, getitem. rewrite Hn. cbn [bind].
  rewrite job_names_eval, H1, H2. reflexivity.
Qed.

(** X4: [description] and [includeRegex] are present exactly when the
    configured value is not [None], and then carry that value unchanged as
    text. *)
Theorem optional_text_fields (data : dict) (root : element) :
  root_xml py_repr cmx data = Ok root ->
  child "description" root
  = (let v := get data "description" VNone in
     if is_None v then None else Some (mkElement "description" [] v [])) /\
  child "includeRegex" root
  = (let v := get data "regex" VNone in
     if is_None v then None else Some (mkElement "includeRegex" [] v [])).
Proof.
  intros H. apply root_xml_view_tree in H. subst root.
  split; cbv zeta; view_child data.
Qed.

Lemma view_tree_flags (data : dict) :
  let root := view_tree py_repr cmx data in
  child "filterExecutors" root
  = Some (flag_element "filterExecutors" (get data "filter-executors" (VBool false))) /\
  child "filterQueue" root
  = Some (flag_element "filterQueue" (get data "filter-queue" (VBool false))) /\
  child "recurse" root
  = Some (flag_element "recurse" (get data "recurse" (VBool false))) /\
  child "statusFilter" root
  = (let v := get data "status-filter" VNone in
     if is_None v then None else Some (flag_element "statusFilter" v)).
Proof.
  repeat split; cbv zeta; view_child data.
Qed.

(** X5: the text of each flag element tells the truth value of the
    configured value, or of the default [False]: true when it is truthy,
    false otherwise; [statusFilter] is there only when [status-filter] is
    not [None]. *)
Theorem flags_follow_truth (data : dict) (root : element) :
  root_xml py_repr cmx data = Ok root ->
  child "filterExecutors" root
  = Some (flag_element "filterExecutors" (get data "filter-executors" (VBool false))) /\
  child "filterQueue" root
  = Some (flag_element "filterQueue" (get data "filter-queue" (VBool false))) /\
  child "recurse" root
  = Some (flag_element "recurse" (get data "recurse" (VBool false))) /\
  child "statusFilter" root
  = (let v := get data "status-filter" VNone in
     if is_None v then None else Some (flag_element "statusFilter" v)).
Proof.
  intros H. apply root_xml_view_tree in H. subst root.
  apply view_tree_flags.
Qed.

(** X6: a flag configured as a non-empty string is rendered as true, the
    string false included: only the truth value of the string counts. *)
Theorem quoted_flag_is_true (data : dict) (root : element)
        (key t : string) (dflt : value) (s : string) :
  In (key, t, dflt) flags ->
  lookup data key = Some (VStr s) ->
  s <> "" ->
  root_xml py_repr cmx data = Ok root ->
  child t root = Some (mkElement t [] (VStr "true") []).
Proof.
  intros Hk Hs Hne H.
  apply root_xml_view_tree in H. subst root.
  destruct (view_tree_flags data) as (H1 & H2 & H3 & H4).
  assert (Ht : truthy (VStr s) = true)
    by (cbn; now destruct (String.eqb_spec s "")).
  cbn [flags In] in Hk.
  destruct Hk as [E|[E|[E|[E|[]]]]]; inversion E; subst; clear E.
  - rewrite H1. unfold get. rewrite Hs. unfold flag_element. now rewrite Ht.
  - rewrite H2. unfold get. rewrite Hs. unfold flag_element. now rewrite Ht.
  - rewrite H3. unfold get. rewrite Hs. unfold flag_element. now rewrite Ht.
  - rewrite H4. unfold get. rewrite Hs. cbn [is_None]. unfold flag_element.
    now rewrite Ht.
Qed.

(** X7: the root is a [hudson.model.ListView] element without attributes or
    text; its children carry, in this order, the tags name, description (if
    any), filterExecutors, filterQueue, properties, jobNames, jobFilters,
    columns, includeRegex (if any), recurse, statusFilter (if any), and no
    tag occurs twice. *)
Theorem root_children_order (data : dict) (root : element) :
  root_xml py_repr cmx data = Ok root ->
  tag root = "hudson.model.ListView" /\
  attrib root = [] /\
  text root = VNone /\
  map tag (children root) = root_tags data /\
  NoDup (root_tags data).
Proof.
  intros H. apply root_xml_view_tree in H. subst root.
  unfold view_tree, root_tags, optional. cbn [tag attrib text children].
  repeat split;
    destruct (is_None (get data "description" VNone));
    destruct (is_None (get data "regex" VNone));
    destruct (is_None (get data "status-filter" VNone));
    try reflexivity;
    cbn [app]; repeat constructor; cbn [In]; intuition discriminate.
Qed.

(** X8: filters come out only of a record. When [job-filters] is anything
    but a dict (a list, such as the default, or a string) and [root_xml]
    returns a tree, [jobFilters] is empty and no entry named a filter type:
    at such an entry the lookup of the block's data fails. *)
Theorem filters_need_a_record (data : dict) (root : element) :
  let jobfilters := get data "job-filters" (VList []) in
  root_xml py_repr cmx data = Ok root ->
  (forall fs, jobfilters <> VDict fs) ->
  child "jobFilters" root = Some (mkElement "jobFilters" [] VNone []) /\
  forall key, In key canonical_order -> ~ In (VStr key) (items jobfilters).
Proof.
  intros jobfilters H Hn. split.
  - apply root_xml_view_tree in H. subst root.
    rewrite child_jobFilters. fold jobfilters. do 2 f_equal.
    induction (items jobfilters) as [|k ks IH]; [reflexivity|].
    cbn [flat_map]. now rewrite filter_output_not_dict, IH.
  - intros key Hk Hin.
    unfold root_xml in H.
    destruct (getitem data "name"); cbn [bind] in H; [|discriminate].
    destruct (job_names _ _ _); cbn [bind] in H; [|discriminate].
    fold jobfilters in H.
    destruct (job_filters cmx _ jobfilters) as [jf|] eqn:Ef; [|discriminate].
    clear H. unfold job_filters in Ef. unfold items in Hin.
    destruct (py_iter jobfilters) as [keys|]; cbn [bind] in Ef; [|destruct Hin].
    destruct (for_each_rounds _ _ _ _ Ef _ Hin) as (s1 & s2 & Hb).
    assert (Hg : forall k, py_get jobfilters k = Err AttributeError)
      by (intros k; destruct jobfilters; try reflexivity; now elim (Hn d)).
    cbn [canonical_order In] in Hk.
    destruct Hk as [<-|[<-|[<-|[<-|[]]]]];
      unfold filter_body, filter_block in Hb;
      cbn [eq_str String.eqb Ascii.eqb Bool.eqb] in Hb;
      rewrite Hg in Hb; cbn [bind] in Hb; discriminate.
Qed.

(** X9: what a tree requires: [name] is present, [job-name] is [None] or
    iterable, [job-filters] is iterable, [columns] is iterable and each of
    its entries can be hashed. *)
Theorem success_requirements (data : dict) (root : element) :
  root_xml py_repr cmx data = Ok root ->
  lookup data "name" <> None /\
  is_None (get data "job-name" VNone) || iterable (get data "job-name" VNone) = true /\
  iterable (get data "job-filters" (VList [])) = true /\
  iterable (get data "columns" (VList [])) = true /\
  forallb hashable (items (get data "columns" (VList []))) = true.
Proof.
  unfold root_xml, getitem. intros H.
  destruct (lookup data "name"); cbn [bind] in H; [|discriminate].
  rewrite job_names_eval in H.
  destruct (is_None _ || iterable _); cbn [bind] in H; [|discriminate].
  unfold job_filters in H. unfold iterable at 1.
  destruct (py_iter (get data "job-filters" (VList []))); cbn [bind] in H;
    [|discriminate].
  destruct (for_each _ _ _); cbn [bind] in H; [|discriminate].
  rewrite columns_xml_eval in H.
  destruct (iterable (get data "columns" (VList [])));
    destruct (forallb hashable _); cbn [andb bind] in H; try discriminate.
  repeat split; congruence.
Qed.

(** X10: the result for a configuration whose [job-filters] names no filter
    type (absent, empty, unknown keys only): [KeyError] without [name];
    otherwise the tree when [job-name] is [None] or iterable and [columns]
    is an iterable of hashable entries, and [TypeError] if not. *)
Theorem unfiltered_result (data : dict) (keys : list value) :
  py_iter (get data "job-filters" (VList [])) = Ok keys ->
  unfiltered keys ->
  root_xml py_repr cmx data
  = match lookup data "name" with
    | None => Err (KeyError "name")
    | Some _ =>
        let jobnames := get data "job-name" VNone in
        let columns := get data "columns" (VList []) in
        if (is_None jobnames || iterable jobnames)
           && (iterable columns && forallb hashable (items columns))
        then Ok (view_tree py_repr cmx data)
        else Err TypeError
    end.
Proof.
  intros Hi Hu. cbv zeta.
  pose proof (root_xml_view_tree py_repr cmx data) as Hv. revert Hv.
  unfold root_xml, getitem.
  destruct (lookup data "name"); cbn [bind]; [|reflexivity].
  rewrite job_names_eval.
  destruct (is_None _ || iterable _); cbn [bind andb]; [|reflexivity].
  unfold job_filters. rewrite Hi. cbn [bind].
  rewrite (proj1 (filter_loop_unfiltered cmx (get data "job-filters" (VList []))
                    keys (Element "jobFilters") Hu)).
  cbn [bind]. rewrite columns_xml_eval.
  destruct (iterable _ && forallb hashable _); cbn [bind]; [|reflexivity].
  intros Hv. f_equal. now apply Hv.
Qed.

(** X11: with [name] present and [job-name] in order, a [job-filters] that
    is not iterable ([None] for a key left empty, a number, a boolean) makes
    [root_xml] raise [TypeError]; leaving the key out does not, as the
    default is the empty list. *)
Theorem filters_not_iterable_fail (data : dict) (name : value) :
  lookup data "name" = Some name ->
  is_None (get data "job-name" VNone) || iterable (get data "job-name" VNone) = true ->
  iterable (get data "job-filters" (VList [])) = false ->
  root_xml py_repr cmx data = Err TypeError /\
  lookup data "job-filters" <> None.
Proof.
  intros Hn Hj Hf. split.
  - unfold root_xml, getitem. rewrite Hn. cbn [bind].
    rewrite job_names_eval, Hj. cbn [bind]. unfold job_filters.
    unfold iterable in Hf.
    destruct (py_iter (get data "job-filters" (VList []))) as [|e] eqn:Ei;
      [discriminate|].
    apply py_iter_errors in Ei. subst. reflexivity.
  - intros Hl. unfold get in Hf. rewrite Hl in Hf. discriminate.
Qed.

(** X12: the order of the top-level keys does not matter: two
    configurations with the same entries in another order (each key once)
    have the same result. *)
Theorem key_order_is_irrelevant (d1 d2 : dict) :
  NoDup (map fst d1) ->
  Permutation d1 d2 ->
  root_xml py_repr cmx d1 = root_xml py_repr cmx d2.
Proof.
  intros Hnd Hp.
  apply root_xml_reads;
    solve [ now apply lookup_permutation
          | apply lookup_get; now apply lookup_permutation ].
Qed.

(** X13: a key that [root_xml] does not read is ignored: adding it, with
    any value, leaves the result as it was. *)
Theorem unknown_keys_are_ignored (data : dict) (k : string) (v : value) :
  ~ In k config_keys ->
  root_xml py_repr cmx ((k, v) :: data) = root_xml py_repr cmx data.
Proof.
  intros Hk.
  assert (Hl : forall k', In k' config_keys ->
                          lookup ((k, v) :: data) k' = lookup data k').
  { intros k' Hk'. cbn [lookup].
    destruct (String.eqb_spec k k') as [->|_]; [contradiction|reflexivity]. }
  apply root_xml_reads;
    solve [ apply Hl; cbn; tauto | apply lookup_get, Hl; cbn; tauto ].
Qed.


(** X15: every child of [columns] is a bare element whose tag the registry
    holds, and there are no more of them than entries in [columns]. *)
Theorem columns_only_from_registry (data : dict) (root : element) :
  root_xml py_repr cmx data = Ok root ->
  exists c,
    child "columns" root = Some c /\
    (forall e,
        In e (children c) ->
        e = Element (tag e) /\ exists name, In (name, tag e) COLUMN_DICT) /\
    length (children c) <= length (items (get data "columns" (VList []))).
Proof.
  intros H. apply root_xml_view_tree in H. subst root.
  rewrite child_columns. eexists; split; [reflexivity|].
  cbn [children]. split.
  - intros e He. apply in_flat_map in He as (v & _ & Hv).
    unfold column_output in Hv.
    destruct v as [| | |s| |]; cbn [resolve] in Hv; try destruct Hv.
    destruct (assoc COLUMN_DICT s) as [cls|] eqn:Ea; [|destruct Hv].
    destruct Hv as [<-|[]]. split; [reflexivity|].
    exists s. cbn [Element tag]. clear -Ea.
    induction COLUMN_DICT as [|[k c] t IH]; [discriminate|].
    cbn [assoc] in Ea. destruct (String.eqb_spec k s) as [->|_].
    + inversion Ea; subst. now left.
    + right. auto.
  - induction (items (get data "columns" (VList []))) as [|v vs IH]; [cbn; lia|].
    cbn [flat_map length]. rewrite length_app.
    assert (length (column_output v) <= 1)
      by (unfold column_output; destruct (resolve v) as [[?|]|]; cbn; lia).
    lia.
Qed.

End RootXmlMore.

(** ** The further properties at concrete configurations *)

Lemma job_names_in_order_witness :
  child "jobNames"
    (view_tree repr_unused convert_mapping_to_xml cfg_jobs)
  = Some (mkElement "jobNames" [] VNone
            [ comparator;
              mkElement "string" [] (VStr "build") [];
              mkElement "string" [] (VStr "7") [] ]).
Proof.
  exact (proj1 (job_names_in_order repr_unused convert_mapping_to_xml
                  cfg_jobs _ eq_refl)
               [VStr "build"; VInt 7] eq_refl).
Defined.

Lemma job_name_string_is_split_witness :
  child "jobNames" (view_tree repr_unused convert_mapping_to_xml cfg_jobs_string)
  = Some (mkElement "jobNames" [] VNone
            [ comparator;
              mkElement "string" [] (VStr "a") [];
              mkElement "string" [] (VStr "b") [] ]) /\
  child "jobNames" (view_tree repr_unused convert_mapping_to_xml cfg_jobs_accent)
  = Some (mkElement "jobNames" [] VNone
            [ comparator;
              mkElement "string" [] (VStr "n") [];
              mkElement "string" [] (VStr "é") [] ]).
Proof.
  split.
  - exact (proj1 (job_name_string_is_split repr_unused convert_mapping_to_xml
                    cfg_jobs_string _ "ab" eq_refl eq_refl)).
  - exact (proj1 (job_name_string_is_split repr_unused convert_mapping_to_xml
                    cfg_jobs_accent _ "né" eq_refl eq_refl)).
Defined.

Lemma job_name_scalar_fails_witness :
  root_xml repr_unused convert_mapping_to_xml cfg_jobs_scalar
  = Err TypeError.
Proof.
  exact (job_name_scalar_fails repr_unused convert_mapping_to_xml
           cfg_jobs_scalar (VStr "v") eq_refl eq_refl eq_refl).
Defined.

Lemma optional_text_fields_witness :
  child "description"
    (view_tree repr_unused convert_mapping_to_xml cfg_regex) = None /\
  child "includeRegex"
    (view_tree repr_unused convert_mapping_to_xml cfg_regex)
  = Some (mkElement "includeRegex" [] (VStr "^a.*") []).
Proof.
  exact (optional_text_fields repr_unused convert_mapping_to_xml
           cfg_regex _ eq_refl).
Defined.

Lemma flags_follow_truth_witness :
  child "filterExecutors"
    (view_tree repr_unused convert_mapping_to_xml cfg_flag_values)
  = Some (mkElement "filterExecutors" [] (VStr "true") []).
Proof.
  exact (proj1 (flags_follow_truth repr_unused convert_mapping_to_xml
                  cfg_flag_values _ eq_refl)).
Defined.

Lemma quoted_flag_is_true_witness :
  child "recurse"
    (view_tree repr_unused convert_mapping_to_xml cfg_quoted_flag)
  = Some (mkElement "recurse" [] (VStr "true") []).
Proof.
  apply (quoted_flag_is_true repr_unused convert_mapping_to_xml
           cfg_quoted_flag _ "recurse" "recurse" (VBool false) "false").
  - cbn; tauto.
  - reflexivity.
  - discriminate.
  - reflexivity.
Defined.

Lemma root_children_order_witness :
  map tag (children (view_tree repr_unused convert_mapping_to_xml
                       cfg_regex))
  = [ "name"; "filterExecutors"; "filterQueue"; "properties"; "jobNames";
      "jobFilters"; "columns"; "includeRegex"; "recurse" ].
Proof.
  exact (proj1 (proj2 (proj2 (proj2
           (root_children_order repr_unused convert_mapping_to_xml
              cfg_regex _ eq_refl))))).
Defined.

Lemma filters_need_a_record_witness :
  child "jobFilters"
    (view_tree repr_unused convert_mapping_to_xml cfg_filter_list)
  = Some (mkElement "jobFilters" [] VNone []) /\
  ~ In (VStr "most-recent") [VStr "other"].
Proof.
  assert (H : forall fs, VList [VStr "other"] <> VDict fs) by discriminate.
  destruct (filters_need_a_record repr_unused convert_mapping_to_xml
              cfg_filter_list _ eq_refl H) as [H1 H2].
  split; [exact H1|]. apply H2. cbn; tauto.
Defined.

Lemma success_requirements_witness :
  lookup cfg_columns "name" <> None /\
  forallb hashable [VStr "job"; VStr "bogus"; VStr "status"] = true.
Proof.
  destruct (success_requirements repr_unused convert_mapping_to_xml
              cfg_columns _ eq_refl) as (H1 & _ & _ & _ & H5).
  split; [exact H1|exact H5].
Defined.

Lemma unfiltered_result_witness :
  root_xml repr_unused convert_mapping_to_xml cfg_bad_column
  = Err TypeError.
Proof.
  apply (unfiltered_result repr_unused convert_mapping_to_xml
           cfg_bad_column [] eq_refl).
  intros k [].
Defined.

Lemma filters_not_iterable_fail_witness :
  root_xml repr_unused convert_mapping_to_xml cfg_null_filters
  = Err TypeError /\
  lookup cfg_null_filters "job-filters" <> None.
Proof.
  exact (filters_not_iterable_fail repr_unused convert_mapping_to_xml
           cfg_null_filters (VStr "v") eq_refl eq_refl eq_refl).
Defined.

Lemma key_order_is_irrelevant_witness :
  root_xml repr_unused convert_mapping_to_xml cfg_described
  = root_xml repr_unused convert_mapping_to_xml cfg_reordered.
Proof.
  apply key_order_is_irrelevant.
  - cbn. repeat constructor; cbn; intuition discriminate.
  - apply perm_swap.
Defined.

Lemma unknown_keys_are_ignored_witness :
  root_xml repr_unused convert_mapping_to_xml
    (("view-type", VStr "list") :: cfg_v1)
  = root_xml repr_unused convert_mapping_to_xml cfg_v1.
Proof.
  apply unknown_keys_are_ignored. cbn. intuition discriminate.
Defined.


Lemma columns_only_from_registry_witness :
  exists c,
    child "columns"
      (view_tree repr_unused convert_mapping_to_xml cfg_columns)
    = Some c /\
    length (children c) <= 3.
Proof.
  destruct (columns_only_from_registry repr_unused
              convert_mapping_to_xml cfg_columns _ eq_refl)
    as (c & Hc & _ & Hl).
  exists c. split; [exact Hc|exact Hl].
Defined.

(** ** Filter blocks as the module runs them *)

Section CompileMore.

Variable py_repr : value -> string.

(** X16: with [name] present and [job-name] in order, a [job-filters]
    record that holds the key of any of the four filter types makes
    [compile] raise [NameError] on [convert_mapping_to_xml], wherever the
    key stands in the record and whatever is stored under it. *)
Theorem filter_block_raises (data : dict) (name : value) (fs : dict) (key : string) :
  lookup data "name" = Some name ->
  is_None (get data "job-name" VNone) || iterable (get data "job-name" VNone) = true ->
  lookup data "job-filters" = Some (VDict fs) ->
  In key canonical_order ->
  lookup fs key <> None ->
  compile py_repr data = Err (NameError "convert_mapping_to_xml").
Proof.
  intros Hn Hj Hf Hk Hl.
  rewrite compile_eval, Hn. cbv zeta. rewrite Hj.
  unfold get at 1 2 3. rewrite Hf. unfold iterable, items. cbn [py_iter filter_error].
  replace (existsb recognised (map (fun kv => VStr (fst kv)) fs)) with true;
    [reflexivity|].
  symmetry. apply existsb_exists. exists (VStr key). split.
  - apply lookup_keys in Hl. apply in_map_iff in Hl as ([k w] & E & Hin).
    cbn [fst] in E. subst k. apply in_map_iff. now exists (key, w).
  - cbn [canonical_order In] in Hk.
    destruct Hk as [<-|[<-|[<-|[<-|[]]]]]; reflexivity.
Qed.

End CompileMore.

Lemma filter_block_raises_witness :
  compile repr_unused cfg_trend = Err (NameError "convert_mapping_to_xml").
Proof.
  apply (filter_block_raises repr_unused cfg_trend (VStr "v")
           [("newest", VDict []); ("build-trend", VDict [])] "build-trend").
  - reflexivity.
  - reflexivity.
  - reflexivity.
  - cbn; tauto.
  - discriminate.
Defined.
